(** * Traffic report script (pdf.py): periodised aggregation, chart, report

    A shallow embedding of [pdf.py].  The script is a straight-line batch
    job: it loads a table, selects three time periods with boolean masks,
    takes the per-state mean of the probability column in each of them,
    plots one line per state, renders an HTML report and converts it to PDF
    inside a [try]/[except].

    Numbers.  The [Probability] column is a float64 column and is modelled
    by the kernel's binary64 floats: sums and quotients round, overflow to
    infinity and propagate NaN as the processor's do, and a missing value
    is NaN.  The [Time] column is only ever compared with the integers 8,
    16, 18 and 20; those comparisons are exact for every float64, and the
    column is modelled by the rationals [Qc].

    Input.  The file is taken as read: it exists, it has the three
    columns, every row has a state and a number as its time.  A
    probability field is a float64 (NaN when the field is empty or a
    missing-value marker) or, when the reader could not take it for a
    number, the text of the field.  Failures of the file system (an input
    file that is missing, an image or a report that cannot be written) are
    not modelled.

    Effects.  What is stateful in the Python program is state here: the
    loaded table object, the current pyplot figure, the files of the working
    directory and the standard output.  Statements are actions of a small
    state-and-exception monad [M]; an exception keeps the state reached when
    it was raised.  The analysis block is given a second time on a store of
    Python objects, where each library call allocates, reads and would be
    able to overwrite objects. *)

From Stdlib Require Import PrimFloat FloatOps SpecFloat Uint63.
From Stdlib Require Import QArith Qcanon Qabs.
From stdpp Require Import base numbers strings list gmap pretty sorting.

#[local] Set Warnings "-clear-no-such-hyp".
#[local] Set Warnings "-inexact-float".

(** ** Python exceptions *)

Record PyExc := mkExc {
  exc_class : string;            (* name of the exception class *)
  derives_Exception : bool;      (* caught by [except Exception] *)
  exc_str : string               (* [str(e)] *)
}.

(** ** The tabular library, as far as the script uses it *)

Module Pandas.

(** A float64: an entry of a numeric column or of a computed Series. *)
Abbreviation float64 := PrimFloat.float.

(** [x != x], the test for NaN. *)
Definition isna (x : float64) : bool := PrimFloat.is_nan x.

(** A field of the probability column as the reader hands it over: a
    float64, or the text of a field it could not take for a number (which
    makes the column an object column). *)
Inductive cell :=
  | Num (x : float64)
  | Text (s : string).

(** [col >= x], [col < x], [col <= x], [col == s]: element-wise comparison
    of a column with a scalar, giving a boolean mask. *)
Definition mask_ge (col : list Qc) (x : Qc) : list bool :=
  (λ t, bool_decide (x ≤ t)%Qc) <$> col.

Definition mask_lt (col : list Qc) (x : Qc) : list bool :=
  (λ t, bool_decide (t < x)%Qc) <$> col.

Definition mask_le (col : list Qc) (x : Qc) : list bool :=
  (λ t, bool_decide (t ≤ x)%Qc) <$> col.

Definition mask_eq (col : list string) (s : string) : list bool :=
  (λ t, bool_decide (t = s)) <$> col.

(** [m1 & m2] on two masks. *)
Definition mask_and (m1 m2 : list bool) : list bool := zip_with andb m1 m2.

(** [df[mask]]: the rows whose mask entry is [True], in table order, as a
    new table.  The masks of the script are computed from the table itself,
    so they have its length. *)
Fixpoint getitem {A} (df : list A) (mask : list bool) : list A :=
  match df, mask with
  | r :: df', b :: mask' =>
      if b then r :: getitem df' mask' else getitem df' mask'
  | _, _ => []
  end.

(** [col.unique()]: the distinct values in order of first appearance (a
    hash table holds the values seen so far). *)
Fixpoint unique_from (seen : gset string) (col : list string) : list string :=
  match col with
  | [] => []
  | s :: col' =>
      if bool_decide (s ∈ seen) then unique_from seen col'
      else s :: unique_from ({[s]} ∪ seen) col'
  end.

Definition unique (col : list string) : list string := unique_from ∅ col.

(** [groupby(key)[val].mean()] on a float64 column: the library's
    [group_mean] kernel.  One pass over the rows keeps, per key, a running
    sum [sumx] with its Kahan compensation and the number [nobs] of values
    that are not NaN; a NaN value is skipped, but its key still gets a
    group.  The mean of a group is [sumx / nobs], and NaN when [nobs = 0]. *)
Record acc := mkAcc {
  sumx : float64;
  compensation : float64;
  nobs : nat
}.

Definition acc0 : acc := mkAcc 0%float 0%float 0.

Definition kahan_add (a : acc) (val : float64) : acc :=
  if isna val then a
  else
    let y := (val - compensation a)%float in
    let t := (sumx a + y)%float in
    let c := (t - sumx a - y)%float in
    mkAcc t (if isna c then 0%float else c) (S (nobs a)).

Definition group_add (groups : gmap string acc) (k : string) (val : float64)
    : gmap string acc :=
  <[k := kahan_add (default acc0 (groups !! k)) val]> groups.

Definition group_sums {A} (key : A → string) (val : A → float64) (df : list A)
    : gmap string acc :=
  foldl (λ groups r, group_add groups (key r) (val r)) ∅ df.

(** The count as a float64, as the division converts it. *)
Definition of_count (n : nat) : float64 :=
  PrimFloat.of_uint63 (Uint63.of_Z (Z.of_nat n)).

Definition fdiv (a : acc) : float64 :=
  match nobs a with
  | O => nan
  | S _ => (sumx a / of_count (nobs a))%float
  end.

Definition groupby_mean {A} (key : A → string) (val : A → float64) (df : list A)
    : gmap string float64 :=
  fdiv <$> group_sums key val df.

(** The kernel on the values of one group. *)
Definition mean (xs : list float64) : float64 := fdiv (foldl kahan_add acc0 xs).

(** The same call on an object column, as releases 2.1 to 2.3 of the
    library answer it.  There is no compiled kernel for the dtype, so the
    mean is taken group by group on Python objects, where the strings of
    the column are not numbers: the first group raises.  A selection
    without rows has no group, and the result is the empty Series.  Other
    releases answer differently; the script takes its answer from the
    environment ([mean_object] below). *)
Definition agg_TypeError : PyExc :=
  mkExc "TypeError" true "agg function failed [how->mean,dtype->object]".

Definition groupby_mean_object {A} (key : A → string) (df : list A)
    : PyExc + gmap string float64 :=
  match unique (key <$> df) with
  | [] => inr ∅
  | _ :: _ => inl agg_TypeError
  end.

(** [series.fillna(x)]: every NaN entry replaced by [x]. *)
Definition fill (x v : float64) : float64 := if isna v then x else v.

Definition fillna (x : float64) (s : gmap string float64) : gmap string float64 :=
  fill x <$> s.

(** What [series.get(key, default)] hands back: the float64 entry, or the
    default object itself, which in the script is the Python int [0]. *)
Inductive pyval :=
  | PyFloat (v : float64)
  | PyInt (z : Z).

Definition get (s : gmap string float64) (key : string) (dflt : pyval) : pyval :=
  match s !! key with
  | Some v => PyFloat v
  | None => dflt
  end.

End Pandas.

(** ** Data model *)

(** One row of [traffic_simulation.csv], for a probability column of
    element type [P]: [Pandas.float64] when the column is float64,
    [Pandas.cell] when it is an object column. *)
Record Row (P : Type) := mkRow {
  Time : Qc;
  State : string;
  Probability : P
}.

Arguments mkRow {P} _ _ _.
Arguments Time {P} _.
Arguments State {P} _.
Arguments Probability {P} _.

Abbreviation Observation := (Row Pandas.float64).
Abbreviation DataFrame := (list (Row Pandas.float64)).

(** The table as [pd.read_csv] returns it. *)
Inductive Table :=
  | Float64Col (df : DataFrame)
  | ObjectCol (df : list (Row Pandas.cell)).

Definition numeric_row (r : Row Pandas.cell) : option Observation :=
  match Probability r with
  | Pandas.Num x => Some (mkRow (Time r) (State r) x)
  | Pandas.Text _ => None
  end.

Definition read_csv (csv : list (Row Pandas.cell)) : Table :=
  match mapM numeric_row csv with
  | Some df => Float64Col df
  | None => ObjectCol csv
  end.

Definition qz (z : Z) : Qc := Qc_of_Z z.

(** ** The environment *)

(** A line of the current figure: what one [plt.plot(x, y, label=...)]
    call adds to the axes. *)
Record Line2D := mkLine {
  xdata : list Qc;
  ydata : list Pandas.cell;
  label : string
}.

(** What the script does not decide itself: the image encoder behind
    [plt.savefig], [os.path.abspath], the text of a float64 in the
    template, the HTML-to-PDF converter, and the installed library's answer
    to [groupby('State')['Probability'].mean()] on an object column.  The
    converter reads the working directory and either hands back the bytes
    of the PDF, which are then on disk, or raises. *)
Record Env := mkEnv {
  encode_png : list Line2D → string;
  abspath : string → string;
  str_float64 : Pandas.float64 → string;
  from_file : gmap string string → string → PyExc + string;
  mean_object : list (Row Pandas.cell) → PyExc + gmap string Pandas.float64
}.

(** ** Step 2 of the script: data analysis (lines 11-17) *)

Definition early_mask {P} (df : list (Row P)) : list bool :=
  Pandas.mask_and (Pandas.mask_ge (Time <$> df) (qz 8))
                  (Pandas.mask_lt (Time <$> df) (qz 16)).

Definition rush_hour_mask {P} (df : list (Row P)) : list bool :=
  Pandas.mask_and (Pandas.mask_ge (Time <$> df) (qz 16))
                  (Pandas.mask_lt (Time <$> df) (qz 18)).

Definition late_mask {P} (df : list (Row P)) : list bool :=
  Pandas.mask_and (Pandas.mask_ge (Time <$> df) (qz 18))
                  (Pandas.mask_le (Time <$> df) (qz 20)).

Definition early_period {P} (df : list (Row P)) : list (Row P) :=
  Pandas.getitem df (early_mask df).

Definition rush_hour_period {P} (df : list (Row P)) : list (Row P) :=
  Pandas.getitem df (rush_hour_mask df).

Definition late_period {P} (df : list (Row P)) : list (Row P) :=
  Pandas.getitem df (late_mask df).

Definition avg_prob_early (df : DataFrame) : gmap string Pandas.float64 :=
  Pandas.fillna 0%float (Pandas.groupby_mean State Probability (early_period df)).

Definition avg_prob_rush_hour (df : DataFrame) : gmap string Pandas.float64 :=
  Pandas.fillna 0%float (Pandas.groupby_mean State Probability (rush_hour_period df)).

Definition avg_prob_late (df : DataFrame) : gmap string Pandas.float64 :=
  Pandas.fillna 0%float (Pandas.groupby_mean State Probability (late_period df)).

(** The three Series the rest of the script reads. *)
Record Analysis := mkAnalysis {
  avg_early : gmap string Pandas.float64;
  avg_rush_hour : gmap string Pandas.float64;
  avg_late : gmap string Pandas.float64
}.

(** Lines 15-17 on either kind of table; on an object column the three
    statements run in order and the first exception ends the block. *)
Definition analyse (env : Env) (t : Table) : PyExc + Analysis :=
  match t with
  | Float64Col df =>
      inr (mkAnalysis (avg_prob_early df) (avg_prob_rush_hour df) (avg_prob_late df))
  | ObjectCol df =>
      match mean_object env (early_period df) with
      | inl e => inl e
      | inr a =>
          match mean_object env (rush_hour_period df) with
          | inl e => inl e
          | inr b =>
              match mean_object env (late_period df) with
              | inl e => inl e
              | inr c =>
                  inr (mkAnalysis (Pandas.fillna 0%float a) (Pandas.fillna 0%float b)
                                  (Pandas.fillna 0%float c))
              end
          end
      end
  end.

(** ** The program state and the monad of statements *)

Record ProgState := mkState {
  df : Table;                        (* the object bound to [df] *)
  axes : list Line2D;                (* lines of the current pyplot figure *)
  files : gmap string string;        (* working directory: name to content *)
  stdout : list string               (* lines printed so far *)
}.

Definition M (A : Type) : Type := ProgState → (PyExc + A) * ProgState.

Definition ret {A} (a : A) : M A := λ st, (inr a, st).

Definition bind {A B} (m : M A) (k : A → M B) : M B :=
  λ st, match m st with
        | (inl e, st') => (inl e, st')
        | (inr a, st') => k a st'
        end.

Definition raise {A} (e : PyExc) : M A := λ st, (inl e, st).

Definition gets {A} (f : ProgState → A) : M A := λ st, (inr (f st), st).

Definition modify (f : ProgState → ProgState) : M unit := λ st, (inr tt, f st).

Definition lift {A} (r : PyExc + A) : M A := λ st, (r, st).

(** [try: body except Exception as e: handler(e)].  An exception whose
    class does not derive from [Exception] passes through. *)
Definition try_except (body : M unit) (handler : PyExc → M unit) : M unit :=
  λ st, match body st with
        | (inl e, st') =>
            if derives_Exception e then handler e st' else (inl e, st')
        | (inr tt, st') => (inr tt, st')
        end.

Notation "'do' x <- m ; k" := (bind m (λ x, k))
  (at level 10, x name, m at level 100, k at level 200).
Notation "m ;; k" := (bind m (λ _, k))
  (at level 100, k at level 200, right associativity).

(** Primitive statements. *)
Definition set_df (t : Table) : M unit :=
  modify (λ st, mkState t (axes st) (files st) (stdout st)).

Definition set_axes (ls : list Line2D) : M unit :=
  modify (λ st, mkState (df st) ls (files st) (stdout st)).

Definition write_file (name content : string) : M unit :=
  modify (λ st, mkState (df st) (axes st) (<[name := content]> (files st)) (stdout st)).

Definition print (line : string) : M unit :=
  modify (λ st, mkState (df st) (axes st) (files st) (stdout st ++ [line])).

(** Line 8 and lines 11-17 as statements. *)
Definition load (csv : list (Row Pandas.cell)) : M unit := set_df (read_csv csv).

Definition aggregate (env : Env) : M Analysis :=
  do t <- gets df; lift (analyse env t).

(** ** Visualisation (lines 20-33) *)

(** The rows of the table with the probability column as the plotting
    library receives it: numbers of a float64 column, objects otherwise. *)
Definition rows_of (t : Table) : list (Row Pandas.cell) :=
  match t with
  | Float64Col d => (λ r, mkRow (Time r) (State r) (Pandas.Num (Probability r))) <$> d
  | ObjectCol d => d
  end.

(** Body of the loop: [state_data = df[df['State'] == state]] and the
    [plt.plot] call, which appends one line to the current axes. *)
Definition state_data {P} (d : list (Row P)) (state : string) : list (Row P) :=
  Pandas.getitem d (Pandas.mask_eq (State <$> d) state).

Definition series_of (d : list (Row Pandas.cell)) (state : string) : Line2D :=
  let sd := state_data d state in
  mkLine (Time <$> sd) (Probability <$> sd) state.

Definition plot_state (d : list (Row Pandas.cell)) (state : string) : M unit :=
  do ls <- gets axes;
  set_axes (ls ++ [series_of d state]).

Fixpoint for_each {A} (xs : list A) (body : A → M unit) : M unit :=
  match xs with
  | [] => ret tt
  | x :: xs' => body x ;; for_each xs' body
  end.

Definition plot_loop : M unit :=
  do t <- gets df;
  for_each (Pandas.unique (State <$> rows_of t)) (plot_state (rows_of t)).

Definition plot_filename : string := "traffic_probabilities_plot.png".

Definition savefig (env : Env) (name : string) : M unit :=
  do ls <- gets axes; write_file name (encode_png env ls).

(** Title, axis labels, legend and grid decorate the figure and add no
    line to it; they are left out. *)
Definition visualise (env : Env) : M unit :=
  set_axes [] ;;                       (* plt.figure *)
  plot_loop ;;
  savefig env plot_filename ;;
  set_axes [].                         (* plt.close *)

(** ** The report template (lines 39-98) *)

(** A value of the template context. *)
Inductive jval :=
  | JNum (v : Pandas.pyval)
  | JStr (s : string).

(** A parsed template: literal text and [{{ name }}] expressions. *)
Inductive node :=
  | Data (s : string)
  | Output (name : string).

Definition nl : string := String (Ascii.ascii_of_nat 10) EmptyString.
Definition dq : string := String (Ascii.ascii_of_nat 34) EmptyString.
Definition line (s : string) : node := Data (s +:+ nl).

Definition html_template : list node := [
  Data nl;
  line "<!DOCTYPE html>";
  line "<html>";
  line "<head>";
  line "    <title>Traffic Simulation Report</title>";
  line "    <style>";
  line "        body { font-family: Arial, sans-serif; margin: 20px; }";
  line "        h1 { text-align: center; }";
  line "        .section { margin-bottom: 30px; }";
  line "    </style>";
  line "</head>";
  line "<body>";
  line "    <h1>Traffic Simulation Report</h1>";
  Data nl;
  Data "    <div class="; Data dq; Data "section"; Data dq; line ">";
  line "        <h2>Average Probabilities</h2>";
  line "        <p><strong>Early Period (8 AM - 4 PM):</strong></p>";
  line "        <ul>";
  Data "            <li>Light: "; Output "avg_prob_early_light"; line "</li>";
  Data "            <li>Heavy: "; Output "avg_prob_early_heavy"; line "</li>";
  Data "            <li>Gridlock: "; Output "avg_prob_early_gridlock"; line "</li>";
  line "        </ul>";
  Data nl;
  line "        <p><strong>Rush Hour Period (4 PM - 6 PM):</strong></p>";
  line "        <ul>";
  Data "            <li>Light: "; Output "avg_prob_rush_hour_light"; line "</li>";
  Data "            <li>Heavy: "; Output "avg_prob_rush_hour_heavy"; line "</li>";
  Data "            <li>Gridlock: "; Output "avg_prob_rush_hour_gridlock"; line "</li>";
  line "        </ul>";
  Data nl;
  line "        <p><strong>Late Period (6 PM - 8 PM):</strong></p>";
  line "        <ul>";
  Data "            <li>Light: "; Output "avg_prob_late_light"; line "</li>";
  Data "            <li>Heavy: "; Output "avg_prob_late_heavy"; line "</li>";
  Data "            <li>Gridlock: "; Output "avg_prob_late_gridlock"; line "</li>";
  line "        </ul>";
  line "    </div>";
  Data nl;
  Data "    <div class="; Data dq; Data "section"; Data dq; line ">";
  line "        <h2>Probability Plot</h2>";
  Data "        <img src="; Data dq; Output "plot_path"; Data dq;
  Data " alt="; Data dq; Data "Traffic State Probabilities"; Data dq; line ">";
  line "    </div>";
  line "</body>";
  Data "</html>"
].

(** The keyword arguments of [template.render] (lines 88-97). *)
Definition context (a : Analysis) (plot_path : string) : gmap string jval :=
  list_to_map [
    ("avg_prob_early_light", JNum (Pandas.get (avg_early a) "Light" (Pandas.PyInt 0)));
    ("avg_prob_early_heavy", JNum (Pandas.get (avg_early a) "Heavy" (Pandas.PyInt 0)));
    ("avg_prob_early_gridlock", JNum (Pandas.get (avg_early a) "Gridlock" (Pandas.PyInt 0)));
    ("avg_prob_rush_hour_light", JNum (Pandas.get (avg_rush_hour a) "Light" (Pandas.PyInt 0)));
    ("avg_prob_rush_hour_heavy", JNum (Pandas.get (avg_rush_hour a) "Heavy" (Pandas.PyInt 0)));
    ("avg_prob_rush_hour_gridlock", JNum (Pandas.get (avg_rush_hour a) "Gridlock" (Pandas.PyInt 0)));
    ("avg_prob_late_light", JNum (Pandas.get (avg_late a) "Light" (Pandas.PyInt 0)));
    ("avg_prob_late_heavy", JNum (Pandas.get (avg_late a) "Heavy" (Pandas.PyInt 0)));
    ("avg_prob_late_gridlock", JNum (Pandas.get (avg_late a) "Gridlock" (Pandas.PyInt 0)));
    ("plot_path", JStr plot_path)
  ].

(** [str] of a context value: a float64 as the environment prints it, a
    Python int in decimal, a string as it is. *)
Definition str_jval (env : Env) (v : jval) : string :=
  match v with
  | JNum (Pandas.PyFloat x) => str_float64 env x
  | JNum (Pandas.PyInt z) => pretty z
  | JStr s => s
  end.

(** An expression whose name is not in the context renders as nothing. *)
Definition render_node (env : Env) (ctx : gmap string jval) (n : node) : string :=
  match n with
  | Data s => s
  | Output x =>
      match ctx !! x with
      | Some v => str_jval env v
      | None => EmptyString
      end
  end.

Definition render (env : Env) (tpl : list node) (ctx : gmap string jval) : string :=
  foldr (λ n out, render_node env ctx n +:+ out) EmptyString tpl.

(** ** Report and export (lines 86-112) *)

Definition html_name : string := "traffic_simulation_report.html".
Definition pdf_name : string := "traffic_simulation_report.pdf".

Definition html_content (env : Env) (a : Analysis) : string :=
  render env html_template (context a (abspath env plot_filename)).

(** [pdfkit.from_file(html, pdf, options=options)]. *)
Definition pdfkit_from_file (env : Env) (src dst : string) : M unit :=
  do fs <- gets files;
  match from_file env fs src with
  | inl e => raise e
  | inr pdf => write_file dst pdf
  end.

Definition export (env : Env) : M unit :=
  try_except
    (pdfkit_from_file env html_name pdf_name ;;
     print "PDF report generated successfully!")
    (λ e, print ("Error generating PDF: " +:+ exc_str e)).

(** Everything before the export: lines 8-101. *)
Definition report (env : Env) (csv : list (Row Pandas.cell)) : M unit :=
  load csv ;;
  do a <- aggregate env;
  visualise env ;;
  write_file html_name (html_content env a).

(** The whole script. *)
Definition main (env : Env) (csv : list (Row Pandas.cell)) : M unit :=
  report env csv ;; export env.

(** ** Lines 11-17 on Python objects *)

(** The same block, statement by statement, on a store of objects: a heap
    in which every library call allocates its result, and the variables
    of the script, which name heap locations.  A frame selected from
    another is a copy; a column taken from a frame, a group-by and its
    column selection are objects that refer to the frame they were made
    from and read it when they are used.  [None] stands for the
    interpreter raising on a name that is not bound or an object of the
    wrong kind. *)
Module Objects.

Definition loc := nat.

Inductive column := ColTime | ColState | ColProbability.

Inductive obj :=
  | Frame (rows : DataFrame)
  | Column (frame : loc) (c : column)
  | BoolSeries (mask : list bool)
  | GroupBy (frame : loc) (key : column)
  | SeriesGroupBy (frame : loc) (key val : column)
  | FloatSeries (s : gmap string Pandas.float64).

Record store := mkStore {
  heap : list obj;
  vars : gmap string loc
}.

Definition Op (A : Type) : Type := store → option (A * store).

Definition unit_ {A} (a : A) : Op A := λ σ, Some (a, σ).

Definition then_ {A B} (m : Op A) (k : A → Op B) : Op B :=
  λ σ, match m σ with
       | Some (a, σ') => k a σ'
       | None => None
       end.

Definition stuck {A} : Op A := λ _, None.

Notation "'op' x <- m ; k" := (then_ m (λ x, k))
  (at level 10, x name, m at level 100, k at level 200).
Notation "m ;;; k" := (then_ m (λ _, k))
  (at level 100, k at level 200, right associativity).

(** Heap and variables. *)
Definition new (o : obj) : Op loc :=
  λ σ, Some (length (heap σ), mkStore (heap σ ++ [o]) (vars σ)).

Definition read (l : loc) : Op obj :=
  λ σ, match heap σ !! l with
       | Some o => Some (o, σ)
       | None => None
       end.

Definition name (x : string) : Op loc :=
  λ σ, match vars σ !! x with
       | Some l => Some (l, σ)
       | None => None
       end.

Definition assign (x : string) (l : loc) : Op unit :=
  λ σ, Some (tt, mkStore (heap σ) (<[x := l]> (vars σ))).

(** The library calls of the block. *)
Definition rows_at (f : loc) : Op DataFrame :=
  op o <- read f;
  match o with
  | Frame d => unit_ d
  | _ => stuck
  end.

Definition mask_at (m : loc) : Op (list bool) :=
  op o <- read m;
  match o with
  | BoolSeries b => unit_ b
  | _ => stuck
  end.

Definition times_at (s : loc) : Op (list Qc) :=
  op o <- read s;
  match o with
  | Column f ColTime => op d <- rows_at f; unit_ (Time <$> d)
  | _ => stuck
  end.

(** [frame[col]] *)
Definition getcol (f : loc) (c : column) : Op loc :=
  rows_at f ;;; new (Column f c).

(** [series >= x], [series < x], [series <= x]: [compare] with the
    library's element-wise test. *)
Definition compare (test : list Qc → Qc → list bool) (s : loc) (x : Qc) : Op loc :=
  op ts <- times_at s; new (BoolSeries (test ts x)).

(** [m1 & m2] *)
Definition and_ (m1 m2 : loc) : Op loc :=
  op b1 <- mask_at m1; op b2 <- mask_at m2;
  new (BoolSeries (Pandas.mask_and b1 b2)).

(** [frame[mask]] *)
Definition getitem (f m : loc) : Op loc :=
  op d <- rows_at f; op b <- mask_at m; new (Frame (Pandas.getitem d b)).

(** [frame.groupby(key)], [grouped[col]], [grouped_col.mean()] *)
Definition groupby (f : loc) (key : column) : Op loc :=
  rows_at f ;;; new (GroupBy f key).

Definition select (g : loc) (c : column) : Op loc :=
  op o <- read g;
  match o with
  | GroupBy f key => new (SeriesGroupBy f key c)
  | _ => stuck
  end.

Definition mean (sg : loc) : Op loc :=
  op o <- read sg;
  match o with
  | SeriesGroupBy f ColState ColProbability =>
      op d <- rows_at f;
      new (FloatSeries (Pandas.groupby_mean State Probability d))
  | _ => stuck
  end.

(** [series.fillna(x)] *)
Definition fillna (s : loc) (x : Pandas.float64) : Op loc :=
  op o <- read s;
  match o with
  | FloatSeries m => new (FloatSeries (Pandas.fillna x m))
  | _ => stuck
  end.

(** Lines 11-13: [target = df[(df['Time'] >= lo) & (df['Time'] < hi)]],
    with [<=] for the late period. *)
Definition select_period (upper : list Qc → Qc → list bool) (lo hi : Qc)
    (target : string) : Op unit :=
  op f <- name "df";
  op t1 <- (op f1 <- name "df"; getcol f1 ColTime);
  op m1 <- compare Pandas.mask_ge t1 lo;
  op t2 <- (op f2 <- name "df"; getcol f2 ColTime);
  op m2 <- compare upper t2 hi;
  op m <- and_ m1 m2;
  op sel <- getitem f m;
  assign target sel.

(** Lines 15-17:
    [target = source.groupby('State')['Probability'].mean().fillna(0)]. *)
Definition mean_of_period (source target : string) : Op unit :=
  op p <- name source;
  op g <- groupby p ColState;
  op sg <- select g ColProbability;
  op s <- mean sg;
  op s0 <- fillna s 0%float;
  assign target s0.

Definition block : Op unit :=
  select_period Pandas.mask_lt (qz 8) (qz 16) "early_period" ;;;
  select_period Pandas.mask_lt (qz 16) (qz 18) "rush_hour_period" ;;;
  select_period Pandas.mask_le (qz 18) (qz 20) "late_period" ;;;
  mean_of_period "early_period" "avg_prob_early" ;;;
  mean_of_period "rush_hour_period" "avg_prob_rush_hour" ;;;
  mean_of_period "late_period" "avg_prob_late".

(** What a variable holds. *)
Definition frame_at (σ : store) (x : string) : option DataFrame :=
  match vars σ !! x with
  | Some l =>
      match heap σ !! l with
      | Some (Frame d) => Some d
      | _ => None
      end
  | None => None
  end.

Definition series_at (σ : store) (x : string) : option (gmap string Pandas.float64) :=
  match vars σ !! x with
  | Some l =>
      match heap σ !! l with
      | Some (FloatSeries s) => Some s
      | _ => None
      end
  | None => None
  end.

(** The three Series the block leaves in its variables. *)
Definition results (σ : store) : option Analysis :=
  match series_at σ "avg_prob_early", series_at σ "avg_prob_rush_hour",
        series_at σ "avg_prob_late" with
  | Some a, Some b, Some c => Some (mkAnalysis a b c)
  | _, _, _ => None
  end.

(** The variables the block assigns. *)
Definition assigned : list string := [
  "early_period"; "rush_hour_period"; "late_period";
  "avg_prob_early"; "avg_prob_rush_hour"; "avg_prob_late"
].

End Objects.

(** Finding an object in a heap that has grown: it is the one just
    allocated, or it was there before. *)
Ltac heap_lookup :=
  cbn [Objects.heap Objects.vars];
  first [ eassumption
        | apply list_lookup_middle; reflexivity
        | apply lookup_app_l_Some; heap_lookup ].

(** ** The specification's vocabulary *)

(** The three named periods and their intervals, as the specification
    words them: Early = [8,16), RushHour = [16,18), Late = [18,20]. *)
Inductive Period := Early | RushHour | Late.

Definition in_period (p : Period) (t : Qc) : Prop :=
  match p with
  | Early => (qz 8 ≤ t)%Qc ∧ (t < qz 16)%Qc
  | RushHour => (qz 16 ≤ t)%Qc ∧ (t < qz 18)%Qc
  | Late => (qz 18 ≤ t)%Qc ∧ (t ≤ qz 20)%Qc
  end.

#[global] Instance in_period_dec p t : Decision (in_period p t).
Proof. destruct p; apply _. Defined.

(** The script's variables, indexed by period. *)
Definition period_mask {P} (p : Period) (df : list (Row P)) : list bool :=
  match p with
  | Early => early_mask df
  | RushHour => rush_hour_mask df
  | Late => late_mask df
  end.

Definition period_rows {P} (p : Period) (df : list (Row P)) : list (Row P) :=
  match p with
  | Early => early_period df
  | RushHour => rush_hour_period df
  | Late => late_period df
  end.

Definition avg_prob (p : Period) (df : DataFrame) : gmap string Pandas.float64 :=
  match p with
  | Early => avg_prob_early df
  | RushHour => avg_prob_rush_hour df
  | Late => avg_prob_late df
  end.

(** The rows the specification speaks of for period [p] and state [s]. *)
Definition matching_rows (p : Period) (s : string) (df : DataFrame) : DataFrame :=
  filter (λ r, in_period p (Time r) ∧ State r = s) df.

(** The entry the script stores for them: the library's mean of their
    probabilities, NaN replaced by 0; no entry when there is no such
    row. *)
Definition spec_entry (p : Period) (s : string) (df : DataFrame)
    : option Pandas.float64 :=
  match matching_rows p s df with
  | [] => None
  | rs => Some (Pandas.fill 0%float (Pandas.mean (Probability <$> rs)))
  end.




(** The nine names of the template that stand for an average. *)
Definition average_names : list string := [
  "avg_prob_early_light"; "avg_prob_early_heavy"; "avg_prob_early_gridlock";
  "avg_prob_rush_hour_light"; "avg_prob_rush_hour_heavy"; "avg_prob_rush_hour_gridlock";
  "avg_prob_late_light"; "avg_prob_late_heavy"; "avg_prob_late_gridlock"
].

(** The text of the report when every average reads as the int 0, with
    the image at [path]. *)
Definition empty_report_text (path : string) : string :=
  nl +:+
  "<!DOCTYPE html>" +:+ nl +:+
  "<html>" +:+ nl +:+
  "<head>" +:+ nl +:+
  "    <title>Traffic Simulation Report</title>" +:+ nl +:+
  "    <style>" +:+ nl +:+
  "        body { font-family: Arial, sans-serif; margin: 20px; }" +:+ nl +:+
  "        h1 { text-align: center; }" +:+ nl +:+
  "        .section { margin-bottom: 30px; }" +:+ nl +:+
  "    </style>" +:+ nl +:+
  "</head>" +:+ nl +:+
  "<body>" +:+ nl +:+
  "    <h1>Traffic Simulation Report</h1>" +:+ nl +:+
  nl +:+
  "    <div class=" +:+ dq +:+ "section" +:+ dq +:+ ">" +:+ nl +:+
  "        <h2>Average Probabilities</h2>" +:+ nl +:+
  "        <p><strong>Early Period (8 AM - 4 PM):</strong></p>" +:+ nl +:+
  "        <ul>" +:+ nl +:+
  "            <li>Light: 0</li>" +:+ nl +:+
  "            <li>Heavy: 0</li>" +:+ nl +:+
  "            <li>Gridlock: 0</li>" +:+ nl +:+
  "        </ul>" +:+ nl +:+
  nl +:+
  "        <p><strong>Rush Hour Period (4 PM - 6 PM):</strong></p>" +:+ nl +:+
  "        <ul>" +:+ nl +:+
  "            <li>Light: 0</li>" +:+ nl +:+
  "            <li>Heavy: 0</li>" +:+ nl +:+
  "            <li>Gridlock: 0</li>" +:+ nl +:+
  "        </ul>" +:+ nl +:+
  nl +:+
  "        <p><strong>Late Period (6 PM - 8 PM):</strong></p>" +:+ nl +:+
  "        <ul>" +:+ nl +:+
  "            <li>Light: 0</li>" +:+ nl +:+
  "            <li>Heavy: 0</li>" +:+ nl +:+
  "            <li>Gridlock: 0</li>" +:+ nl +:+
  "        </ul>" +:+ nl +:+
  "    </div>" +:+ nl +:+
  nl +:+
  "    <div class=" +:+ dq +:+ "section" +:+ dq +:+ ">" +:+ nl +:+
  "        <h2>Probability Plot</h2>" +:+ nl +:+
  "        <img src=" +:+ dq +:+ path +:+ dq +:+ " alt=" +:+ dq
    +:+ "Traffic State Probabilities" +:+ dq +:+ ">" +:+ nl +:+
  "    </div>" +:+ nl +:+
  "</body>" +:+ nl +:+
  "</html>".

(** The error the specification names for non-numeric data: an exception
    of class DataFormatError whose text names row [i]. *)
Definition is_DataFormatError_at (i : nat) (e : PyExc) : Prop :=
  exc_class e = "DataFormatError" ∧ ∃ pre post, exc_str e = pre +:+ pretty i +:+ post.

(** Ascending order of a column of times. *)
Definition ascending (ts : list Qc) : Prop := Sorted Qcle ts.

(** ** Concrete tables and environments *)

(** The dataset of the specification's worked scenario:
    (8, Light, 0.2), (9, Light, 0.4), (17, Heavy, 0.9). *)
Definition scenario : DataFrame := [
  mkRow (qz 8) "Light" 0.2%float;
  mkRow (qz 9) "Light" 0.4%float;
  mkRow (qz 17) "Heavy" 0.9%float
].

(** The same rows as they come out of the CSV file. *)
Definition scenario_csv : list (Row Pandas.cell) := rows_of (Float64Col scenario).

(** Two rows on the period boundaries. *)
Definition boundary_table : DataFrame := [
  mkRow (qz 16) "Heavy" 0.5%float;
  mkRow (qz 20) "Light" 0.25%float
].

(** A file whose rows are not in time order. *)
Definition unsorted_csv : list (Row Pandas.cell) := [
  mkRow (qz 9) "Light" (Pandas.Num 0.4%float);
  mkRow (qz 8) "Light" (Pandas.Num 0.2%float)
].

(** A file with a probability field that is not a number, in its second
    row. *)
Definition bad_csv : list (Row Pandas.cell) := [
  mkRow (qz 8) "Light" (Pandas.Num 0.2%float);
  mkRow (qz 9) "Light" (Pandas.Text "high")
].

(** Two large probabilities, and a file whose only early Light row has no
    probability. *)
Definition huge : DataFrame := [
  mkRow (qz 8) "Light" 1e308%float;
  mkRow (qz 9) "Light" 1e308%float
].

Definition unmeasured : DataFrame := [
  mkRow (qz 8) "Light" nan;
  mkRow (qz 17) "Heavy" 0.9%float
].

(** A machine on which the converter is missing. *)
Definition no_wkhtmltopdf : PyExc :=
  mkExc "OSError" true "No wkhtmltopdf executable found".

Definition broken_env : Env :=
  mkEnv (λ _, "PNG") (λ name, "/work/" +:+ name) (λ _, "0.5")
        (λ _ _, inl no_wkhtmltopdf) (Pandas.groupby_mean_object State).

Definition fresh : ProgState := mkState (Float64Col []) [] ∅ [].

(** The state in which a run of [report] ends when nothing is raised. *)
Definition reported (env : Env) (csv : list (Row Pandas.cell)) (a : Analysis)
    (st : ProgState) : ProgState :=
  mkState (read_csv csv) []
    (<[html_name := html_content env a]>
       (<[plot_filename :=
            encode_png env (series_of (rows_of (read_csv csv))
                              <$> Pandas.unique (State <$> rows_of (read_csv csv)))]>
          (files st)))
    (stdout st).

(** A store in which [df] names the scenario's frame. *)
Definition scenario_store : Objects.store :=
  Objects.mkStore [Objects.Frame scenario] {["df" := 0%nat]}.

(** ** Further vocabulary *)

(** The hours the three periods span together. *)
Definition in_range (t : Qc) : Prop := (qz 8 ≤ t)%Qc ∧ (t ≤ qz 20)%Qc.

#[global] Instance in_range_dec t : Decision (in_range t).
Proof. unfold in_range. apply _. Defined.

(** The analysis of a float64 table (lines 15-17). *)
Definition analysis_of (df : DataFrame) : Analysis :=
  mkAnalysis (avg_prob_early df) (avg_prob_rush_hour df) (avg_prob_late df).

(** The names a template asks for, in the order of the text. *)
Definition placeholders (tpl : list node) : list string :=
  tpl ≫= λ n, match n with Output x => [x] | Data _ => [] end.

(** The three states the report shows, and the three files the script
    writes. *)
Definition reported_states : list string := ["Light"; "Heavy"; "Gridlock"].

Definition artifacts : list string := [plot_filename; html_name; pdf_name].

(** A machine on which the conversion works, and one on which it is
    interrupted from the keyboard. *)
Definition working_env : Env :=
  mkEnv (λ _, "PNG") (λ name, "/work/" +:+ name) (λ _, "0.5") (λ _ _, inr "PDF")
        (Pandas.groupby_mean_object State).

Definition keyboard_interrupt : PyExc := mkExc "KeyboardInterrupt" false EmptyString.

Definition interrupted_env : Env :=
  mkEnv (λ _, "PNG") (λ name, "/work/" +:+ name) (λ _, "0.5")
        (λ _ _, inl keyboard_interrupt) (Pandas.groupby_mean_object State).

(** ** Masks and selections *)

Section Selection.
Context {P : Type}.
Implicit Types (df : list (Row P)) (r : Row P).

(** Indexing a table with a mask computed row by row keeps the rows on
    which the test holds. *)
Lemma getitem_fmap {A} (f : A → bool) (l : list A) :
  Pandas.getitem l (f <$> l) = filter (λ x, f x = true) l.
Proof.
  induction l as [|x l IH]; [done|].
  cbn [fmap list_fmap Pandas.getitem]. rewrite filter_cons.
  destruct (f x) eqn:E; case_decide; try congruence; by rewrite IH.
Qed.

Lemma period_mask_fmap p df :
  period_mask p df = (λ r, bool_decide (in_period p (Time r))) <$> df.
Proof.
  destruct p; cbn [period_mask];
    unfold early_mask, rush_hour_mask, late_mask,
      Pandas.mask_and, Pandas.mask_ge, Pandas.mask_lt, Pandas.mask_le;
    rewrite <-!list_fmap_compose, zip_with_fmap_l, zip_with_fmap_r, zip_with_diag;
    apply list_fmap_ext; intros _ r _; cbn;
    unfold in_period; by rewrite bool_decide_and.
Qed.

Lemma period_rows_getitem p df :
  period_rows p df = Pandas.getitem df (period_mask p df).
Proof. by destruct p. Qed.

Lemma period_rows_filter p df :
  period_rows p df = filter (λ r, in_period p (Time r)) df.
Proof.
  rewrite period_rows_getitem, period_mask_fmap, getitem_fmap.
  apply list_filter_iff. intros r. by rewrite bool_decide_eq_true.
Qed.

Lemma elem_of_period_rows p df r :
  r ∈ period_rows p df ↔ r ∈ df ∧ in_period p (Time r).
Proof. rewrite period_rows_filter, list_elem_of_filter. tauto. Qed.

Lemma state_data_filter df s :
  state_data df s = filter (λ r, State r = s) df.
Proof.
  unfold state_data, Pandas.mask_eq. rewrite <-list_fmap_compose, getitem_fmap.
  apply list_filter_iff. intros r. cbn. by rewrite bool_decide_eq_true.
Qed.

End Selection.

(** ** Grouped means *)

Section Groups.
Context {A : Type} (key : A → string) (val : A → Pandas.float64).
Implicit Types (df : list A) (k : string).

Lemma group_sums_snoc df r :
  Pandas.group_sums key val (df ++ [r])
  = Pandas.group_add (Pandas.group_sums key val df) (key r) (val r).
Proof. unfold Pandas.group_sums. by rewrite foldl_app. Qed.

(** The accumulator of a key has seen the values of the rows of that key,
    in table order, and of no other row; a key without a row has none. *)
Lemma group_sums_lookup df k :
  Pandas.group_sums key val df !! k
  = match filter (λ r, key r = k) df with
    | [] => None
    | g => Some (foldl Pandas.kahan_add Pandas.acc0 (val <$> g))
    end.
Proof.
  induction df as [|r df IH] using rev_ind; [done|].
  rewrite group_sums_snoc, filter_app, filter_cons, filter_nil.
  unfold Pandas.group_add. case_decide as Hk.
  - subst k. rewrite lookup_insert_eq, IH.
    destruct (filter _ df) as [|r0 g]; [done|].
    cbn [app default from_option id].
    rewrite !app_comm_cons, fmap_app, foldl_app. done.
  - rewrite lookup_insert_ne by done. by rewrite app_nil_r.
Qed.

Lemma groupby_mean_lookup df k :
  Pandas.groupby_mean key val df !! k
  = match filter (λ r, key r = k) df with
    | [] => None
    | g => Some (Pandas.mean (val <$> g))
    end.
Proof.
  unfold Pandas.groupby_mean. rewrite lookup_fmap, group_sums_lookup.
  by destruct (filter _ df).
Qed.

End Groups.

Lemma avg_prob_groupby p df :
  avg_prob p df
  = Pandas.fillna 0%float (Pandas.groupby_mean State Probability (period_rows p df)).
Proof. by destruct p. Qed.

Lemma avg_prob_lookup p df s :
  avg_prob p df !! s = spec_entry p s df.
Proof.
  rewrite avg_prob_groupby. unfold Pandas.fillna.
  rewrite lookup_fmap, groupby_mean_lookup, period_rows_filter.
  assert (filter (λ r, State r = s) (filter (λ r, in_period p (Time r)) df)
          = matching_rows p s df) as ->.
  { unfold matching_rows. rewrite list_filter_filter.
    apply list_filter_iff. intros r; cbn. tauto. }
  unfold spec_entry. by destruct (matching_rows p s df).
Qed.

(** ** The aggregation against its specification *)


(** Two probabilities of 1e308 have the mean infinity, and a state whose
    only row in the period has no probability reads 0. *)
Lemma stored_mean_overflows :
  avg_prob Early huge !! "Light" = Some infinity.
Proof. rewrite avg_prob_lookup. vm_compute. reflexivity. Qed.

Lemma stored_mean_of_nothing :
  avg_prob Early unmeasured !! "Light" = Some 0%float.
Proof. rewrite avg_prob_lookup. vm_compute. reflexivity. Qed.



(** Claim C2.  In every dataset, a row whose time is 16 is selected into
    the rush-hour period and not into the early one, and a row whose time
    is 20 is selected into the late period. *)
Theorem boundary_rows (df : DataFrame) (r : Observation) :
  r ∈ df →
  (Time r = qz 16 → r ∈ rush_hour_period df ∧ r ∉ early_period df)
  ∧ (Time r = qz 20 → r ∈ late_period df).
Proof.
  intros Hr. split.
  - intros Ht. split.
    + apply (elem_of_period_rows RushHour). split; [done|].
      rewrite Ht. split; compute_done.
    + intros [_ [_ H]]%(elem_of_period_rows Early).
      rewrite Ht in H. revert H. compute_done.
  - intros Ht. apply (elem_of_period_rows Late). split; [done|].
    rewrite Ht. split; compute_done.
Qed.

Lemma boundary_rows_witness :
  (mkRow (qz 16) "Heavy" 0.5%float ∈ rush_hour_period boundary_table
   ∧ mkRow (qz 16) "Heavy" 0.5%float ∉ early_period boundary_table)
  ∧ mkRow (qz 20) "Light" 0.25%float ∈ late_period boundary_table.
Proof.
  split.
  - apply (boundary_rows boundary_table (mkRow (qz 16) "Heavy" 0.5%float)).
    + apply list_elem_of_here.
    + reflexivity.
  - apply (boundary_rows boundary_table (mkRow (qz 20) "Light" 0.25%float)).
    + apply list_elem_of_further, list_elem_of_here.
    + reflexivity.
Defined.

(** ** Rows outside every period, and disjointness *)

Lemma in_period_range p t : in_period p t → (qz 8 ≤ t)%Qc ∧ (t ≤ qz 20)%Qc.
Proof.
  assert (qz 8 ≤ qz 16)%Qc by compute_done.
  assert (qz 8 ≤ qz 18)%Qc by compute_done.
  assert (qz 16 < qz 20)%Qc by compute_done.
  assert (qz 18 < qz 20)%Qc by compute_done.
  destruct p; intros [Hlo Hhi]; split;
    eauto using Qcle_trans, Qclt_le_weak, Qclt_trans.
Qed.

Lemma in_period_unique p q t : in_period p t → in_period q t → p = q.
Proof.
  assert (qz 16 ≤ qz 18)%Qc by compute_done.
  destruct p, q; try done; intros [Hlo Hhi] [Hlo' Hhi']; exfalso;
    match goal with
    | Hlt : (t < ?b)%Qc |- _ =>
        solve [apply (Qclt_not_le _ _ Hlt); eauto using Qcle_trans]
    end.
Qed.

(** Claim C9.  A row whose time is below 8 or above 20 is selected into
    none of the three periods, whatever the dataset, and appending it to a
    dataset changes neither the three selections nor the three Series. *)
Theorem out_of_range_row_ignored (df : DataFrame) (o : Observation) :
  (Time o < qz 8 ∨ qz 20 < Time o)%Qc →
  (∀ p (df' : DataFrame), o ∉ period_rows p df')
  ∧ (∀ p, period_rows p (df ++ [o]) = period_rows p df)
  ∧ (∀ p, avg_prob p (df ++ [o]) = avg_prob p df).
Proof.
  intros Hout.
  assert (∀ p, ¬ in_period p (Time o)) as Hno.
  { intros p [Hlo Hhi]%in_period_range.
    destruct Hout as [Hout|Hout]; eapply Qclt_not_le; eauto. }
  assert (∀ p, period_rows p (df ++ [o]) = period_rows p df) as Hrows.
  { intros p. rewrite !period_rows_filter, filter_app, filter_cons, filter_nil.
    rewrite decide_False by apply Hno. apply app_nil_r. }
  split; [|split].
  - intros p df' [_ Hin]%elem_of_period_rows. by eapply Hno.
  - done.
  - intros p. by rewrite !avg_prob_groupby, Hrows.
Qed.

Lemma out_of_range_row_ignored_witness :
  (∀ p (df' : DataFrame), mkRow (qz 21) "Light" 0.5%float ∉ period_rows p df')
  ∧ (∀ p, period_rows p (scenario ++ [mkRow (qz 21) "Light" 0.5%float])
          = period_rows p scenario)
  ∧ (∀ p, avg_prob p (scenario ++ [mkRow (qz 21) "Light" 0.5%float])
          = avg_prob p scenario).
Proof.
  apply (out_of_range_row_ignored scenario (mkRow (qz 21) "Light" 0.5%float)).
  right. reflexivity.
Defined.

(** Claim C10.  The three selections are pairwise disjoint: at every
    position of the table at most one of the three masks is true, and no
    row belongs to two of the three selected tables. *)
Theorem periods_pairwise_disjoint (df : DataFrame) :
  (∀ i, length (filter (λ p, period_mask p df !! i = Some true)
                       [Early; RushHour; Late]) ≤ 1)
  ∧ (∀ r, ¬ (r ∈ early_period df ∧ r ∈ rush_hour_period df)
          ∧ ¬ (r ∈ early_period df ∧ r ∈ late_period df)
          ∧ ¬ (r ∈ rush_hour_period df ∧ r ∈ late_period df)).
Proof.
  split.
  - intros i.
    assert (∀ p q, period_mask p df !! i = Some true →
                   period_mask q df !! i = Some true → p = q) as Huniq.
    { intros p q. rewrite !period_mask_fmap, !list_lookup_fmap.
      destruct (df !! i) as [r|]; [|done]. cbn.
      intros [=Hp%bool_decide_eq_true] [=Hq%bool_decide_eq_true].
      by eapply in_period_unique. }
    rewrite !filter_cons, filter_nil.
    repeat case_decide; cbn; try lia;
      match goal with
      | H1 : period_mask ?p _ !! _ = _, H2 : period_mask ?q _ !! _ = _ |- _ =>
          assert (p = q) by (by apply Huniq); discriminate
      end.
  - intros r.
    pose proof (elem_of_period_rows (P:=Pandas.float64) Early df r) as He.
    pose proof (elem_of_period_rows (P:=Pandas.float64) RushHour df r) as Hr.
    pose proof (elem_of_period_rows (P:=Pandas.float64) Late df r) as Hl.
    cbn [period_rows] in He, Hr, Hl.
    rewrite He, Hr, Hl.
    split; [|split]; intros [[_ H1] [_ H2]];
      by pose proof (in_period_unique _ _ _ H1 H2).
Qed.

(** ** The worked scenario *)



(** ** Distinct values *)

Lemma elem_of_unique_from seen col s :
  s ∈ Pandas.unique_from seen col ↔ s ∈ col ∧ s ∉ seen.
Proof.
  revert seen. induction col as [|x col IH]; intros seen; cbn.
  - set_solver.
  - case_bool_decide as Hx.
    + rewrite IH. set_solver.
    + rewrite elem_of_cons, IH. destruct (decide (s = x)); set_solver.
Qed.

Lemma NoDup_unique_from seen col : NoDup (Pandas.unique_from seen col).
Proof.
  revert seen. induction col as [|x col IH]; intros seen; cbn.
  - constructor.
  - case_bool_decide; [done|]. constructor; [|done].
    rewrite elem_of_unique_from. set_solver.
Qed.

Lemma elem_of_unique col s : s ∈ Pandas.unique col ↔ s ∈ col.
Proof. unfold Pandas.unique. rewrite elem_of_unique_from. set_solver. Qed.

Lemma unique_nil_inv col : Pandas.unique col = [] → col = [].
Proof.
  destruct col as [|x col]; [done|]. intros H.
  assert (x ∈ Pandas.unique (x :: col)) as Hx by (apply elem_of_unique; left).
  rewrite H in Hx. by apply elem_of_nil in Hx.
Qed.

(** ** Running the statements *)

Lemma for_each_plot_state d states st :
  for_each states (plot_state d) st
  = (inr tt, mkState (df st) (axes st ++ (series_of d <$> states)) (files st) (stdout st)).
Proof.
  revert st. induction states as [|s states IH]; intros [t ls fs out]; cbn.
  - by rewrite app_nil_r.
  - rewrite IH. cbn. by rewrite <-app_assoc.
Qed.

Lemma plot_loop_run st :
  plot_loop st
  = (inr tt, mkState (df st)
               (axes st ++ (series_of (rows_of (df st))
                              <$> Pandas.unique (State <$> rows_of (df st))))
               (files st) (stdout st)).
Proof. unfold plot_loop, bind, gets. apply for_each_plot_state. Qed.

Lemma visualise_run env st :
  visualise env st
  = (inr tt, mkState (df st) []
               (<[plot_filename :=
                    encode_png env (series_of (rows_of (df st))
                                      <$> Pandas.unique (State <$> rows_of (df st)))]>
                  (files st))
               (stdout st)).
Proof.
  unfold visualise. unfold bind at 1. cbn. unfold bind at 1.
  rewrite plot_loop_run. reflexivity.
Qed.

Lemma aggregate_run env st : aggregate env st = (analyse env (df st), st).
Proof. reflexivity. Qed.

Lemma report_run env csv st :
  report env csv st
  = match analyse env (read_csv csv) with
    | inl e => (inl e, mkState (read_csv csv) (axes st) (files st) (stdout st))
    | inr a => (inr tt, reported env csv a st)
    end.
Proof.
  unfold report, bind, load, set_df, modify.
  rewrite aggregate_run. cbn [df].
  destruct (analyse env (read_csv csv)) as [e|a]; [done|].
  rewrite visualise_run. reflexivity.
Qed.

(** ** The analysis block on objects *)

Section ObjectRuns.
Import Objects.

Lemma then_run {A B} (m : Op A) (k : A → Op B) σ a σ' :
  m σ = Some (a, σ') → then_ m k σ = k a σ'.
Proof. unfold then_. by intros ->. Qed.

Lemma name_run x l σ : vars σ !! x = Some l → name x σ = Some (l, σ).
Proof. unfold name. by intros ->. Qed.

Lemma rows_at_run f d σ : heap σ !! f = Some (Frame d) → rows_at f σ = Some (d, σ).
Proof. unfold rows_at, then_, read. by intros ->. Qed.

Lemma mask_at_run m b σ :
  heap σ !! m = Some (BoolSeries b) → mask_at m σ = Some (b, σ).
Proof. unfold mask_at, then_, read. by intros ->. Qed.

Lemma getcol_run f c d σ :
  heap σ !! f = Some (Frame d) →
  getcol f c σ = Some (length (heap σ), mkStore (heap σ ++ [Column f c]) (vars σ)).
Proof. intros H. unfold getcol. by rewrite (then_run _ _ _ _ _ (rows_at_run _ _ _ H)). Qed.

Lemma compare_run test s x f d σ :
  heap σ !! s = Some (Column f ColTime) → heap σ !! f = Some (Frame d) →
  compare test s x σ
  = Some (length (heap σ),
          mkStore (heap σ ++ [BoolSeries (test (Time <$> d) x)]) (vars σ)).
Proof.
  intros Hs Hf. unfold compare, times_at, then_ at 1 2, read. rewrite Hs.
  by rewrite (then_run _ _ _ _ _ (rows_at_run _ _ _ Hf)).
Qed.

Lemma and_run m1 m2 b1 b2 σ :
  heap σ !! m1 = Some (BoolSeries b1) → heap σ !! m2 = Some (BoolSeries b2) →
  and_ m1 m2 σ
  = Some (length (heap σ),
          mkStore (heap σ ++ [BoolSeries (Pandas.mask_and b1 b2)]) (vars σ)).
Proof.
  intros H1 H2. unfold and_.
  rewrite (then_run _ _ _ _ _ (mask_at_run _ _ _ H1)).
  by rewrite (then_run _ _ _ _ _ (mask_at_run _ _ _ H2)).
Qed.

Lemma getitem_run f m d b σ :
  heap σ !! f = Some (Frame d) → heap σ !! m = Some (BoolSeries b) →
  getitem f m σ
  = Some (length (heap σ),
          mkStore (heap σ ++ [Frame (Pandas.getitem d b)]) (vars σ)).
Proof.
  intros Hf Hm. unfold getitem.
  rewrite (then_run _ _ _ _ _ (rows_at_run _ _ _ Hf)).
  by rewrite (then_run _ _ _ _ _ (mask_at_run _ _ _ Hm)).
Qed.

Lemma groupby_run f key d σ :
  heap σ !! f = Some (Frame d) →
  groupby f key σ = Some (length (heap σ), mkStore (heap σ ++ [GroupBy f key]) (vars σ)).
Proof. intros H. unfold groupby. by rewrite (then_run _ _ _ _ _ (rows_at_run _ _ _ H)). Qed.

Lemma select_run g f key c σ :
  heap σ !! g = Some (GroupBy f key) →
  select g c σ
  = Some (length (heap σ), mkStore (heap σ ++ [SeriesGroupBy f key c]) (vars σ)).
Proof. intros H. unfold select, then_, read. by rewrite H. Qed.

Lemma mean_run sg f d σ :
  heap σ !! sg = Some (SeriesGroupBy f ColState ColProbability) →
  heap σ !! f = Some (Frame d) →
  mean sg σ
  = Some (length (heap σ),
          mkStore (heap σ ++ [FloatSeries (Pandas.groupby_mean State Probability d)])
                  (vars σ)).
Proof.
  intros Hsg Hf. unfold mean, then_ at 1, read. rewrite Hsg.
  by rewrite (then_run _ _ _ _ _ (rows_at_run _ _ _ Hf)).
Qed.

Lemma fillna_run s x m σ :
  heap σ !! s = Some (FloatSeries m) →
  fillna s x σ
  = Some (length (heap σ), mkStore (heap σ ++ [FloatSeries (Pandas.fillna x m)]) (vars σ)).
Proof. intros H. unfold fillna, then_, read. by rewrite H. Qed.

Lemma heap_lookup_old (h news : list obj) l o :
  h !! l = Some o → (h ++ news) !! l = Some o.
Proof. apply lookup_app_l_Some. Qed.

Lemma heap_lookup_new (h news : list obj) k o :
  news !! k = Some o → (h ++ news) !! (length h + k)%nat = Some o.
Proof.
  intros H. rewrite lookup_app_r by lia.
  by replace (length h + k - length h)%nat with k by lia.
Qed.

Lemma select_period_run upper lo hi target σ ℓ d :
  vars σ !! "df" = Some ℓ → heap σ !! ℓ = Some (Frame d) →
  select_period upper lo hi target σ
  = Some (tt, mkStore
      (heap σ ++ [Column ℓ ColTime;
                  BoolSeries (Pandas.mask_ge (Time <$> d) lo);
                  Column ℓ ColTime;
                  BoolSeries (upper (Time <$> d) hi);
                  BoolSeries (Pandas.mask_and (Pandas.mask_ge (Time <$> d) lo)
                                              (upper (Time <$> d) hi));
                  Frame (Pandas.getitem d
                           (Pandas.mask_and (Pandas.mask_ge (Time <$> d) lo)
                                            (upper (Time <$> d) hi)))])
      (<[target := (length (heap σ) + 5)%nat]> (vars σ))).
Proof.
  intros Hdf Hℓ. destruct σ as [h vs]. cbn [heap vars] in *.
  unfold select_period.
  erewrite then_run; [| eapply name_run; heap_lookup ].
  erewrite then_run;
    [| erewrite then_run; [| eapply name_run; heap_lookup ];
       eapply getcol_run; heap_lookup ].
  erewrite then_run; [| eapply compare_run; heap_lookup ].
  erewrite then_run;
    [| erewrite then_run; [| eapply name_run; heap_lookup ];
       eapply getcol_run; heap_lookup ].
  erewrite then_run; [| eapply compare_run; heap_lookup ].
  erewrite then_run; [| eapply and_run; heap_lookup ].
  erewrite then_run; [| eapply getitem_run; heap_lookup ].
  unfold assign. cbn [heap vars].
  rewrite <-!app_assoc, !length_app. cbn [app length].
  repeat (f_equal; try lia).
Qed.

Lemma mean_of_period_run source target σ l sel :
  vars σ !! source = Some l → heap σ !! l = Some (Frame sel) →
  mean_of_period source target σ
  = Some (tt, mkStore
      (heap σ ++ [GroupBy l ColState;
                  SeriesGroupBy l ColState ColProbability;
                  FloatSeries (Pandas.groupby_mean State Probability sel);
                  FloatSeries (Pandas.fillna 0%float
                                 (Pandas.groupby_mean State Probability sel))])
      (<[target := (length (heap σ) + 3)%nat]> (vars σ))).
Proof.
  intros Hsrc Hl. destruct σ as [h vs]. cbn [heap vars] in *.
  unfold mean_of_period.
  erewrite then_run; [| eapply name_run; heap_lookup ].
  erewrite then_run; [| eapply groupby_run; heap_lookup ].
  erewrite then_run; [| eapply select_run; heap_lookup ].
  erewrite then_run; [| eapply mean_run; heap_lookup ].
  erewrite then_run; [| eapply fillna_run; heap_lookup ].
  unfold assign. cbn [heap vars].
  rewrite <-!app_assoc, !length_app. cbn [app length].
  repeat (f_equal; try lia).
Qed.

Lemma select_period_spec upper lo hi target σ ℓ d :
  vars σ !! "df" = Some ℓ → heap σ !! ℓ = Some (Frame d) →
  ∃ σ' l,
    select_period upper lo hi target σ = Some (tt, σ')
    ∧ heap σ `prefix_of` heap σ'
    ∧ vars σ' = <[target := l]> (vars σ)
    ∧ heap σ' !! l
      = Some (Frame (Pandas.getitem d
                       (Pandas.mask_and (Pandas.mask_ge (Time <$> d) lo)
                                        (upper (Time <$> d) hi)))).
Proof.
  intros Hdf Hℓ. eexists _, _. split; [by eapply select_period_run|].
  cbn [heap vars]. split_and!.
  - by eexists.
  - done.
  - by apply heap_lookup_new.
Qed.

Lemma mean_of_period_spec source target σ l sel :
  vars σ !! source = Some l → heap σ !! l = Some (Frame sel) →
  ∃ σ' l',
    mean_of_period source target σ = Some (tt, σ')
    ∧ heap σ `prefix_of` heap σ'
    ∧ vars σ' = <[target := l']> (vars σ)
    ∧ heap σ' !! l'
      = Some (FloatSeries (Pandas.fillna 0%float
                             (Pandas.groupby_mean State Probability sel))).
Proof.
  intros Hsrc Hl. eexists _, _. split; [by eapply mean_of_period_run|].
  cbn [heap vars]. split_and!.
  - by eexists.
  - done.
  - by apply heap_lookup_new.
Qed.

(** One run of the block from a store in which [df] names a frame: the
    objects that were there stay as they are, new ones are allocated
    behind them, only the six variables of the block are rebound, and the
    three Series are those of the analysis of the frame's rows. *)
Lemma block_run σ ℓ d :
  vars σ !! "df" = Some ℓ → heap σ !! ℓ = Some (Frame d) →
  ∃ σ',
    block σ = Some (tt, σ')
    ∧ heap σ `prefix_of` heap σ'
    ∧ (∀ x, x ∉ assigned → vars σ' !! x = vars σ !! x)
    ∧ results σ'
      = Some (mkAnalysis (avg_prob_early d) (avg_prob_rush_hour d) (avg_prob_late d)).
Proof.
  intros Hdf Hℓ. unfold block.
  destruct (select_period_spec Pandas.mask_lt (qz 8) (qz 16) "early_period"
              σ ℓ d Hdf Hℓ) as (σ1 & l1 & R1 & P1 & V1 & L1).
  rewrite (then_run _ _ _ _ _ R1).
  assert (vars σ1 !! "df" = Some ℓ) as Hdf1
    by (by rewrite V1, lookup_insert_ne).
  assert (heap σ1 !! ℓ = Some (Frame d)) as Hℓ1
    by (by eapply prefix_lookup_Some).
  destruct (select_period_spec Pandas.mask_lt (qz 16) (qz 18) "rush_hour_period"
              σ1 ℓ d Hdf1 Hℓ1) as (σ2 & l2 & R2 & P2 & V2 & L2).
  rewrite (then_run _ _ _ _ _ R2).
  assert (vars σ2 !! "df" = Some ℓ) as Hdf2
    by (by rewrite V2, lookup_insert_ne).
  assert (heap σ2 !! ℓ = Some (Frame d)) as Hℓ2
    by (by eapply prefix_lookup_Some).
  destruct (select_period_spec Pandas.mask_le (qz 18) (qz 20) "late_period"
              σ2 ℓ d Hdf2 Hℓ2) as (σ3 & l3 & R3 & P3 & V3 & L3).
  rewrite (then_run _ _ _ _ _ R3).
  assert (vars σ3 !! "early_period" = Some l1) as He3.
  { rewrite V3, V2, V1. rewrite !lookup_insert_ne by done. apply lookup_insert_eq. }
  assert (heap σ3 !! l1 = Some (Frame (early_period d))) as Hle3.
  { eapply prefix_lookup_Some; [|exact P3].
    eapply prefix_lookup_Some; [exact L1|exact P2]. }
  destruct (mean_of_period_spec "early_period" "avg_prob_early" σ3 l1 _ He3 Hle3)
    as (σ4 & l4 & R4 & P4 & V4 & L4).
  rewrite (then_run _ _ _ _ _ R4).
  assert (vars σ4 !! "rush_hour_period" = Some l2) as Hr4.
  { rewrite V4, V3, V2. rewrite !lookup_insert_ne by done. apply lookup_insert_eq. }
  assert (heap σ4 !! l2 = Some (Frame (rush_hour_period d))) as Hlr4.
  { eapply prefix_lookup_Some; [|exact P4].
    eapply prefix_lookup_Some; [exact L2|exact P3]. }
  destruct (mean_of_period_spec "rush_hour_period" "avg_prob_rush_hour" σ4 l2 _
              Hr4 Hlr4) as (σ5 & l5 & R5 & P5 & V5 & L5).
  rewrite (then_run _ _ _ _ _ R5).
  assert (vars σ5 !! "late_period" = Some l3) as Hl5.
  { rewrite V5, V4, V3. rewrite !lookup_insert_ne by done. apply lookup_insert_eq. }
  assert (heap σ5 !! l3 = Some (Frame (late_period d))) as Hll5.
  { eapply prefix_lookup_Some; [|exact P5].
    eapply prefix_lookup_Some; [exact L3|exact P4]. }
  destruct (mean_of_period_spec "late_period" "avg_prob_late" σ5 l3 _ Hl5 Hll5)
    as (σ6 & l6 & R6 & P6 & V6 & L6).
  rewrite R6. eexists. split; [done|]. split_and!.
  - do 5 (etrans; [eassumption|]). done.
  - intros x Hx. unfold assigned in Hx.
    rewrite !not_elem_of_cons in Hx. destruct Hx as (?&?&?&?&?&?&_).
    rewrite V6, V5, V4, V3, V2, V1. by rewrite !lookup_insert_ne.
  - unfold results, series_at.
    assert (vars σ6 !! "avg_prob_early" = Some l4) as ->.
    { rewrite V6, V5, V4. rewrite !lookup_insert_ne by done. apply lookup_insert_eq. }
    assert (vars σ6 !! "avg_prob_rush_hour" = Some l5) as ->.
    { rewrite V6, V5. rewrite !lookup_insert_ne by done. apply lookup_insert_eq. }
    assert (vars σ6 !! "avg_prob_late" = Some l6) as ->.
    { rewrite V6. apply lookup_insert_eq. }
    assert (heap σ6 !! l4 = Some (FloatSeries (avg_prob_early d))) as ->.
    { eapply prefix_lookup_Some; [|exact P6].
      eapply prefix_lookup_Some; [exact L4|exact P5]. }
    assert (heap σ6 !! l5 = Some (FloatSeries (avg_prob_rush_hour d))) as ->.
    { eapply prefix_lookup_Some; [exact L5|exact P6]. }
    assert (heap σ6 !! l6 = Some (FloatSeries (avg_prob_late d))) as -> by exact L6.
    done.
Qed.

(** Claim C7.  The aggregation block has no effect on the dataset or on
    any other object, and no state of its own: from every store in which
    [df] names a frame, the block runs to its end; every object that was
    in the heap, the frame included, is unchanged afterwards and only the
    block's six variables are rebound; the three Series it leaves are
    those of the analysis of the frame's rows, whatever else the store
    holds; and run a second time it leaves the same three Series. *)
Theorem analysis_block_pure (σ : store) (ℓ : loc) (d : DataFrame) :
  vars σ !! "df" = Some ℓ →
  heap σ !! ℓ = Some (Frame d) →
  ∃ σ1 σ2,
    block σ = Some (tt, σ1) ∧ block σ1 = Some (tt, σ2)
    ∧ heap σ `prefix_of` heap σ1 ∧ heap σ1 `prefix_of` heap σ2
    ∧ (∀ x, x ∉ assigned →
            vars σ1 !! x = vars σ !! x ∧ vars σ2 !! x = vars σ !! x)
    ∧ frame_at σ1 "df" = Some d ∧ frame_at σ2 "df" = Some d
    ∧ results σ1
      = Some (mkAnalysis (avg_prob_early d) (avg_prob_rush_hour d) (avg_prob_late d))
    ∧ results σ2 = results σ1.
Proof.
  intros Hdf Hℓ.
  assert ("df" ∉ assigned) as Hna by (apply (bool_decide_unpack _); reflexivity).
  destruct (block_run σ ℓ d Hdf Hℓ) as (σ1 & R1 & P1 & V1 & S1).
  assert (vars σ1 !! "df" = Some ℓ) as Hdf1 by (by rewrite V1).
  assert (heap σ1 !! ℓ = Some (Frame d)) as Hℓ1 by (by eapply prefix_lookup_Some).
  destruct (block_run σ1 ℓ d Hdf1 Hℓ1) as (σ2 & R2 & P2 & V2 & S2).
  assert (vars σ2 !! "df" = Some ℓ) as Hdf2 by (by rewrite V2).
  assert (heap σ2 !! ℓ = Some (Frame d)) as Hℓ2 by (by eapply prefix_lookup_Some).
  exists σ1, σ2. split_and!; try done.
  - intros x Hx. split; [by apply V1|]. by rewrite V2, V1.
  - unfold frame_at. by rewrite Hdf1, Hℓ1.
  - unfold frame_at. by rewrite Hdf2, Hℓ2.
  - by rewrite S1, S2.
Qed.

Lemma analysis_block_pure_witness :
  ∃ σ1 σ2,
    block scenario_store = Some (tt, σ1) ∧ block σ1 = Some (tt, σ2)
    ∧ heap scenario_store `prefix_of` heap σ1 ∧ heap σ1 `prefix_of` heap σ2
    ∧ (∀ x, x ∉ assigned →
            vars σ1 !! x = vars scenario_store !! x
            ∧ vars σ2 !! x = vars scenario_store !! x)
    ∧ frame_at σ1 "df" = Some scenario ∧ frame_at σ2 "df" = Some scenario
    ∧ results σ1
      = Some (mkAnalysis (avg_prob_early scenario) (avg_prob_rush_hour scenario)
                         (avg_prob_late scenario))
    ∧ results σ2 = results σ1.
Proof.
  apply (analysis_block_pure scenario_store 0%nat scenario).
  - reflexivity.
  - reflexivity.
Defined.

End ObjectRuns.
(** ** The chart *)

Lemma ascending_filter_times (P : Row Pandas.cell → Prop)
    `{!∀ r, Decision (P r)} (d : list (Row Pandas.cell)) :
  ascending (Time <$> d) → ascending (Time <$> filter P d).
Proof.
  unfold ascending. intros Hs.
  apply StronglySorted_Sorted.
  apply Sorted_StronglySorted in Hs; [|intros x y z; apply Qcle_trans].
  induction d as [|r d IH]; [constructor|].
  cbn in Hs. apply StronglySorted_inv in Hs as [Hd Hall].
  rewrite filter_cons. case_decide; [|by apply IH].
  cbn. constructor; [by apply IH|].
  rewrite Forall_fmap in Hall |- *.
  eapply Forall_forall. intros x [_ Hx]%list_elem_of_filter.
  by eapply Forall_forall in Hall.
Qed.

(** Claim C8, as the code has it.  From any state, the chart gets exactly
    one line per distinct state value of the table, labelled with it; the
    points of a line are the (time, probability) pairs of the rows of that
    state in the order of the table, so they are in ascending time order
    whenever the table is. *)
Theorem chart_series (env : Env) (st : ProgState) :
  ∃ lines,
    visualise env st
    = (inr tt, mkState (df st) [] (<[plot_filename := encode_png env lines]> (files st))
                 (stdout st))
    ∧ NoDup (label <$> lines)
    ∧ (∀ s, s ∈ label <$> lines ↔ s ∈ State <$> rows_of (df st))
    ∧ Forall (λ l,
        xdata l = Time <$> filter (λ r, State r = label l) (rows_of (df st))
        ∧ ydata l = Probability <$> filter (λ r, State r = label l) (rows_of (df st)))
        lines
    ∧ (ascending (Time <$> rows_of (df st)) → Forall (λ l, ascending (xdata l)) lines).
Proof.
  set (d := rows_of (df st)).
  exists (series_of d <$> Pandas.unique (State <$> d)).
  assert (label <$> (series_of d <$> Pandas.unique (State <$> d))
          = Pandas.unique (State <$> d)) as Hlabels.
  { rewrite <-list_fmap_compose. apply list_fmap_id. }
  split_and!.
  - apply visualise_run.
  - rewrite Hlabels. apply NoDup_unique_from.
  - intros s. rewrite Hlabels. apply elem_of_unique.
  - apply Forall_fmap, Forall_forall. intros s _. cbn.
    by rewrite state_data_filter.
  - intros Hasc. apply Forall_fmap, Forall_forall. intros s _. cbn.
    rewrite state_data_filter. by apply ascending_filter_times.
Qed.

(** Claim C8, as stated, fails: the rows of a state are plotted in the
    order of the file.  With a Light row at 9 before a Light row at 8, the
    Light line runs from time 9 back to time 8. *)
Lemma unsorted_file_unsorted_line :
  ∃ l, l ∈ axes (snd (plot_loop (mkState (read_csv unsorted_csv) [] ∅ [])))
       ∧ label l = "Light"
       ∧ xdata l = [qz 9; qz 8]
       ∧ ¬ ascending (xdata l).
Proof.
  exists (series_of unsorted_csv "Light").
  split_and!.
  - rewrite plot_loop_run. cbn. left.
  - reflexivity.
  - reflexivity.
  - cbn. intros Hs. apply Sorted_inv in Hs as [_ Hhd].
    apply HdRel_inv in Hhd. revert Hhd. compute_done.
Qed.

(** ** Export failure *)

(** Claim C3.  In every run in which the HTML-to-PDF converter raises an
    error: the report file holds the rendered HTML in the state in which
    the converter is called; the run then prints one line, "Error
    generating PDF: " followed by the text of the error, changes nothing
    else, and ends normally instead of passing the exception on. *)
Theorem export_failure_reported (env : Env) (csv : list (Row Pandas.cell))
    (st st1 : ProgState) (e : PyExc) :
  report env csv st = (inr tt, st1) →
  from_file env (files st1) html_name = inl e →
  derives_Exception e = true →
  (∃ a, analyse env (read_csv csv) = inr a
        ∧ files st1 !! html_name = Some (html_content env a))
  ∧ main env csv st
    = (inr tt, mkState (df st1) (axes st1) (files st1)
                 (stdout st1 ++ ["Error generating PDF: " +:+ exc_str e])).
Proof.
  intros Hreport Hconv Hexc. split.
  - rewrite report_run in Hreport.
    destruct (analyse env (read_csv csv)) as [e'|a]; [done|].
    injection Hreport as <-. exists a. split; [done|].
    unfold reported. cbn [files]. apply lookup_insert_eq.
  - unfold main. unfold bind at 1. rewrite Hreport.
    unfold export, try_except, pdfkit_from_file, bind, gets.
    rewrite Hconv. unfold raise. by rewrite Hexc.
Qed.

(** What [except Exception] does not catch, such as a keyboard interrupt
    during the conversion, leaves the script as an exception. *)
Lemma export_passes_on_other (env : Env) (st : ProgState) (e : PyExc) :
  from_file env (files st) html_name = inl e →
  derives_Exception e = false →
  export env st = (inl e, st).
Proof.
  intros Hconv Hexc.
  unfold export, try_except, pdfkit_from_file, bind, gets.
  rewrite Hconv. unfold raise. by rewrite Hexc.
Qed.

Lemma export_failure_reported_witness :
  (∃ a, analyse broken_env (read_csv scenario_csv) = inr a
        ∧ files (snd (report broken_env scenario_csv fresh)) !! html_name
          = Some (html_content broken_env a))
  ∧ main broken_env scenario_csv fresh
    = (inr tt, mkState (df (snd (report broken_env scenario_csv fresh)))
                 (axes (snd (report broken_env scenario_csv fresh)))
                 (files (snd (report broken_env scenario_csv fresh)))
                 (stdout (snd (report broken_env scenario_csv fresh))
                    ++ ["Error generating PDF: " +:+ exc_str no_wkhtmltopdf])).
Proof.
  apply (export_failure_reported broken_env scenario_csv fresh
           (snd (report broken_env scenario_csv fresh)) no_wkhtmltopdf).
  - rewrite report_run. reflexivity.
  - reflexivity.
  - reflexivity.
Defined.

(** ** The empty dataset *)

(** Claim C4.  For the empty dataset the analysis succeeds with three
    empty Series, the run reaches the report without raising, each of the
    nine averages handed to the template is the default, the int 0, and
    the HTML written to the report file is the template's text with 0 in
    each of the nine places. *)
Theorem empty_dataset_report (env : Env) (st : ProgState) :
  analyse env (read_csv []) = inr (mkAnalysis ∅ ∅ ∅)
  ∧ report env [] st = (inr tt, reported env [] (mkAnalysis ∅ ∅ ∅) st)
  ∧ files (reported env [] (mkAnalysis ∅ ∅ ∅) st) !! html_name
    = Some (empty_report_text (abspath env plot_filename))
  ∧ Forall (λ name,
      context (mkAnalysis ∅ ∅ ∅) (abspath env plot_filename) !! name
      = Some (JNum (Pandas.PyInt 0))
      ∧ render_node env (context (mkAnalysis ∅ ∅ ∅) (abspath env plot_filename))
          (Output name) = "0")
      average_names.
Proof.
  split_and!.
  - reflexivity.
  - by rewrite report_run.
  - unfold reported. cbn [files]. rewrite lookup_insert_eq.
    unfold html_content. generalize (abspath env plot_filename). intros path.
    vm_compute. reflexivity.
  - unfold average_names. repeat constructor.
Qed.

(** ** Non-numeric probabilities *)

(** The column is an object column exactly when the reader left the text
    of some field in it. *)
Lemma read_csv_object csv d :
  read_csv csv = ObjectCol d
  ↔ d = csv ∧ ∃ r s, r ∈ csv ∧ Probability r = Pandas.Text s.
Proof.
  unfold read_csv. destruct (mapM numeric_row csv) as [df|] eqn:E.
  - split; [done|]. intros [_ (r & s & Hr & Hs)].
    apply mapM_Some_1 in E. apply list_elem_of_lookup in Hr as [i Hi].
    destruct (Forall2_lookup_l _ _ _ i _ E Hi) as (y & _ & Hy).
    unfold numeric_row in Hy. by rewrite Hs in Hy.
  - split; [intros [= <-]|by intros [-> _]]. split; [done|].
    apply mapM_None_1, Exists_exists in E as (r & Hr & Hnone).
    exists r. unfold numeric_row in Hnone.
    destruct (Probability r) as [x|s] eqn:Hp; [done|]. by exists s.
Qed.

Lemma agg_TypeError_not_DataFormatError i :
  ¬ is_DataFormatError_at i Pandas.agg_TypeError.
Proof. by intros [? _]. Qed.

(** Claim C5, as stated, fails: the file [bad_csv] has the text "high" for
    the probability of its row 1, and with the library answering as its
    releases 2.1 to 2.3 do the analysis ends with the library's
    TypeError, which is no DataFormatError and names no row. *)
Lemma non_numeric_no_DataFormatError :
  (∃ r s, bad_csv !! 1%nat = Some r ∧ Probability r = Pandas.Text s)
  ∧ analyse broken_env (read_csv bad_csv) = inl Pandas.agg_TypeError
  ∧ ¬ ∃ e i, analyse broken_env (read_csv bad_csv) = inl e
             ∧ is_DataFormatError_at i e.
Proof.
  split_and!.
  - by eexists _, _.
  - reflexivity.
  - intros (e & i & He & Hcls). injection He as <-.
    by apply agg_TypeError_not_DataFormatError in Hcls.
Qed.

(** Claim C5, as the code has it.  For every dataset whose probability
    column is read as an object column, the script raises nothing of its
    own: the analysis fails exactly when the library's group mean raises
    on the early, the rush-hour or the late selection, the earlier ones
    having succeeded, and then with that very exception; it is not caught,
    and the run ends with it before any file is written or line
    printed. *)
Theorem non_numeric_probability_raises (env : Env) (csv d : list (Row Pandas.cell))
    (st : ProgState) :
  read_csv csv = ObjectCol d →
  (∀ e, analyse env (read_csv csv) = inl e
        ↔ mean_object env (early_period d) = inl e
          ∨ (∃ a, mean_object env (early_period d) = inr a)
            ∧ mean_object env (rush_hour_period d) = inl e
          ∨ (∃ a b, mean_object env (early_period d) = inr a
                    ∧ mean_object env (rush_hour_period d) = inr b)
            ∧ mean_object env (late_period d) = inl e)
  ∧ (∀ e, analyse env (read_csv csv) = inl e →
          main env csv st
          = (inl e, mkState (ObjectCol d) (axes st) (files st) (stdout st))).
Proof.
  intros Hread. rewrite Hread. split.
  - intros e. cbn [analyse].
    destruct (mean_object env (early_period d)) as [e1|a].
    { split; [intros [= ->]; by left|].
      by intros [[= ->]|[[[? [=]] _]|[(? & ? & [=] & _) _]]]. }
    destruct (mean_object env (rush_hour_period d)) as [e2|b].
    { split; [intros [= ->]; right; left; eauto|].
      by intros [[=]|[[_ [= ->]]|[(? & ? & _ & [=]) _]]]. }
    destruct (mean_object env (late_period d)) as [e3|c].
    { split; [intros [= ->]; right; right; eauto|].
      by intros [[=]|[[_ [=]]|[_ [= ->]]]]. }
    split; [done|]. by intros [[=]|[[_ [=]]|[_ [=]]]].
  - intros e He. unfold main. unfold bind at 1.
    rewrite report_run, Hread, He. by rewrite <-Hread.
Qed.

Lemma non_numeric_probability_raises_witness :
  (∀ e, analyse broken_env (read_csv bad_csv) = inl e
        ↔ mean_object broken_env (early_period bad_csv) = inl e
          ∨ (∃ a, mean_object broken_env (early_period bad_csv) = inr a)
            ∧ mean_object broken_env (rush_hour_period bad_csv) = inl e
          ∨ (∃ a b, mean_object broken_env (early_period bad_csv) = inr a
                    ∧ mean_object broken_env (rush_hour_period bad_csv) = inr b)
            ∧ mean_object broken_env (late_period bad_csv) = inl e)
  ∧ (∀ e, analyse broken_env (read_csv bad_csv) = inl e →
          main broken_env bad_csv fresh
          = (inl e, mkState (ObjectCol bad_csv) (axes fresh) (files fresh)
                      (stdout fresh))).
Proof.
  apply (non_numeric_probability_raises broken_env bad_csv bad_csv fresh).
  reflexivity.
Defined.

(** * Further properties of the script *)

(** ** Structure of the selections *)

Lemma in_range_period t : in_range t ↔ ∃ p, in_period p t.
Proof.
  split.
  - intros [Hlo Hhi].
    destruct (Qclt_le_dec t (qz 16)) as [H16|H16]; [by exists Early|].
    destruct (Qclt_le_dec t (qz 18)) as [H18|H18]; [by exists RushHour|].
    by exists Late.
  - intros [p Hp]. by apply in_period_range in Hp.
Qed.

(** Every mask has one entry per row of the table, so indexing never runs
    out of mask; each selection is a sub-table in table order; and the
    three selections together hold exactly the rows whose time is from 8
    to 20, each of them once. *)
Theorem selections_partition_range (df : DataFrame) :
  (∀ p, length (period_mask p df) = length df)
  ∧ (∀ p, period_rows p df `sublist_of` df)
  ∧ early_period df ++ rush_hour_period df ++ late_period df
    ≡ₚ filter (λ r, in_range (Time r)) df
  ∧ (length (early_period df) + length (rush_hour_period df)
     + length (late_period df)
     = length (filter (λ r, in_range (Time r)) df))%nat.
Proof.
  assert (early_period df ++ rush_hour_period df ++ late_period df
          ≡ₚ filter (λ r, in_range (Time r)) df) as Hperm.
  { change (period_rows Early df ++ period_rows RushHour df ++ period_rows Late df
            ≡ₚ filter (λ r, in_range (Time r)) df).
    rewrite !period_rows_filter.
    induction df as [|r df IH]; [done|].
    rewrite !filter_cons.
    destruct (decide (in_range (Time r))) as [Hr|Hr].
    - apply in_range_period in Hr as [p Hp].
      destruct p;
        repeat case_decide;
        repeat match goal with
          | H1 : in_period ?p _, H2 : in_period ?q _ |- _ =>
              lazymatch p with
              | q => fail
              | _ => by pose proof (in_period_unique _ _ _ H1 H2)
              end
          end; try done.
      + cbn [app]. by constructor.
      + rewrite <-app_comm_cons, <-Permutation_middle. by constructor.
      + rewrite app_assoc, <-Permutation_middle, <-app_assoc. by constructor.
    - assert (∀ p, ¬ in_period p (Time r)) as Hno.
      { intros p Hp. apply Hr, in_range_period. by exists p. }
      rewrite !decide_False by apply Hno. done. }
  split_and!.
  - intros p. rewrite period_mask_fmap. apply length_fmap.
  - intros p. rewrite period_rows_filter. apply sublist_filter.
  - done.
  - rewrite <-Hperm, !length_app. lia.
Qed.

(** ** What the means are *)

Lemma isna_fill_zero v : Pandas.isna (Pandas.fill 0%float v) = false.
Proof.
  unfold Pandas.fill. destruct (Pandas.isna v) eqn:E; [reflexivity|done].
Qed.

Lemma mean_of_missing (xs : list Pandas.float64) :
  Forall (λ x, Pandas.isna x = true) xs → Pandas.mean xs = nan.
Proof.
  intros Hall. unfold Pandas.mean.
  assert (foldl Pandas.kahan_add Pandas.acc0 xs = Pandas.acc0) as ->; [|done].
  induction Hall as [|x xs Hx _ IH]; [done|].
  cbn [foldl]. unfold Pandas.kahan_add at 2. by rewrite Hx.
Qed.

(** What [fillna(0)] leaves: no entry of a Series is NaN; a state has an
    entry exactly when some row of the dataset lies in the period and has
    that state; and when none of these rows has a probability, the entry
    is 0. *)
Theorem series_entries_after_fillna (df : DataFrame) (p : Period) (s : string) :
  (∀ v, avg_prob p df !! s = Some v → Pandas.isna v = false)
  ∧ (is_Some (avg_prob p df !! s) ↔ ∃ r, r ∈ df ∧ in_period p (Time r) ∧ State r = s)
  ∧ ((∃ r, r ∈ df ∧ in_period p (Time r) ∧ State r = s) →
     (∀ r, r ∈ df → in_period p (Time r) → State r = s →
           Pandas.isna (Probability r) = true) →
     avg_prob p df !! s = Some 0%float).
Proof.
  assert (is_Some (avg_prob p df !! s)
          ↔ ∃ r, r ∈ df ∧ in_period p (Time r) ∧ State r = s) as Hdom.
  { rewrite avg_prob_lookup. unfold spec_entry, matching_rows.
    destruct (filter _ df) as [|r rs] eqn:E.
    + split; [by intros [? ?]|]. intros (r & Hr & Hp & Hs).
      assert (r ∈ filter (λ r, in_period p (Time r) ∧ State r = s) df) as Hin
        by (by apply list_elem_of_filter).
      rewrite E in Hin. by apply elem_of_nil in Hin.
    + split; [|by eauto]. intros _. exists r.
      assert (r ∈ filter (λ r, in_period p (Time r) ∧ State r = s) df) as Hin
        by (rewrite E; left).
      apply list_elem_of_filter in Hin. tauto. }
  split_and!.
  - intros v. rewrite avg_prob_lookup. unfold spec_entry.
    destruct (matching_rows p s df); [done|]. intros [= <-]. apply isna_fill_zero.
  - done.
  - intros Hex Hall. apply Hdom in Hex as [v Hv]. rewrite Hv. f_equal.
    rewrite avg_prob_lookup in Hv. unfold spec_entry in Hv.
    assert (Forall (λ x, Pandas.isna x = true) (Probability <$> matching_rows p s df))
      as Hmiss.
    { apply Forall_fmap, Forall_forall.
      intros r [[Hp Hs] Hr]%list_elem_of_filter. by apply Hall. }
    destruct (matching_rows p s df) as [|r rs]; [done|].
    injection Hv as <-. by rewrite mean_of_missing.
Qed.

Lemma matching_rows_snoc p s df o :
  matching_rows p s (df ++ [o])
  = matching_rows p s df
    ++ (if decide (in_period p (Time o) ∧ State o = s) then [o] else []).
Proof.
  unfold matching_rows. rewrite filter_app, filter_cons, filter_nil.
  by case_decide.
Qed.

Lemma avg_prob_lookup_snoc_other p s df o :
  ¬ (in_period p (Time o) ∧ State o = s) →
  avg_prob p (df ++ [o]) !! s = avg_prob p df !! s.
Proof.
  intros Hno. rewrite !avg_prob_lookup. unfold spec_entry.
  rewrite matching_rows_snoc, decide_False by done. by rewrite app_nil_r.
Qed.

(** A row added to the file changes at most one entry: the one of its own
    period and state.  Every other entry of the three Series stays as it
    was. *)
Theorem appended_row_is_local (df : DataFrame) (o : Observation)
    (p : Period) (s : string) :
  ¬ (in_period p (Time o) ∧ State o = s) →
  avg_prob p (df ++ [o]) !! s = avg_prob p df !! s.
Proof.
  intros Hno. rewrite !avg_prob_lookup. unfold spec_entry.
  rewrite matching_rows_snoc.
  destruct (decide (in_period p (Time o) ∧ State o = s)) as [Hyes|_]; [done|].
  by rewrite app_nil_r.
Qed.

Lemma appended_row_is_local_witness :
  avg_prob Early (scenario ++ [mkRow (qz 17) "Light" 0.5%float]) !! "Light"
  = avg_prob Early scenario !! "Light".
Proof.
  apply (appended_row_is_local scenario (mkRow (qz 17) "Light" 0.5%float)
           Early "Light").
  intros [[_ Hlt] _]. revert Hlt. compute_done.
Defined.
(** ** The template and its arguments *)

(** The template asks for ten names, each once, and the call to
    [template.render] supplies exactly these ten: no expression of the
    report is left undefined and no argument goes unused. *)
Theorem template_names_supplied (a : Analysis) (path : string) :
  NoDup (placeholders html_template)
  ∧ length (placeholders html_template) = 10%nat
  ∧ dom (context a path) = list_to_set (placeholders html_template)
  ∧ context a path !! "plot_path" = Some (JStr path).
Proof.
  split_and!.
  - apply (bool_decide_unpack _). by vm_compute.
  - reflexivity.
  - unfold context. rewrite dom_list_to_map_L. reflexivity.
  - reflexivity.
Qed.

Lemma context_ext (a a' : Analysis) (path : string) :
  (∀ s, s ∈ reported_states →
        avg_early a !! s = avg_early a' !! s
        ∧ avg_rush_hour a !! s = avg_rush_hour a' !! s
        ∧ avg_late a !! s = avg_late a' !! s) →
  context a path = context a' path.
Proof.
  intros H.
  destruct (H "Light") as (HeL & HrL & HlL); [set_solver|].
  destruct (H "Heavy") as (HeH & HrH & HlH); [set_solver|].
  destruct (H "Gridlock") as (HeG & HrG & HlG); [set_solver|].
  unfold context, Pandas.get.
  by rewrite HeL, HrL, HlL, HeH, HrH, HlH, HeG, HrG, HlG.
Qed.

(** The report shows the states Light, Heavy and Gridlock and no other:
    a row whose state has another name, or the same name in another
    spelling, is averaged but changes nothing in the HTML. *)
Theorem other_states_not_reported (env : Env) (df : DataFrame) (o : Observation) :
  State o ∉ reported_states →
  html_content env (analysis_of (df ++ [o])) = html_content env (analysis_of df).
Proof.
  intros Hother. unfold html_content. f_equal.
  apply context_ext. intros s Hs.
  assert (State o ≠ s) as Hne by (intros Heq; apply Hother; by rewrite Heq).
  pose proof (avg_prob_lookup_snoc_other Early s df o) as He.
  pose proof (avg_prob_lookup_snoc_other RushHour s df o) as Hr.
  pose proof (avg_prob_lookup_snoc_other Late s df o) as Hl.
  cbn [avg_prob] in He, Hr, Hl. cbn [analysis_of avg_early avg_rush_hour avg_late].
  rewrite He, Hr, Hl by tauto. done.
Qed.

Lemma other_states_not_reported_witness :
  html_content broken_env
    (analysis_of (scenario ++ [mkRow (qz 9) "light" 0.5%float]))
  = html_content broken_env (analysis_of scenario).
Proof.
  apply (other_states_not_reported broken_env scenario
           (mkRow (qz 9) "light" 0.5%float)).
  apply (bool_decide_unpack _). reflexivity.
Defined.

(** ** Whole runs *)

Lemma export_run env st :
  export env st
  = match from_file env (files st) html_name with
    | inr pdf =>
        (inr tt, mkState (df st) (axes st) (<[pdf_name := pdf]> (files st))
                   (stdout st ++ ["PDF report generated successfully!"]))
    | inl e =>
        if derives_Exception e
        then (inr tt, mkState (df st) (axes st) (files st)
                        (stdout st ++ ["Error generating PDF: " +:+ exc_str e]))
        else (inl e, st)
    end.
Proof.
  unfold export, try_except, pdfkit_from_file, bind, gets.
  destruct (from_file env (files st) html_name) as [e|pdf]; [|done].
  unfold raise. by destruct (derives_Exception e).
Qed.

Lemma main_run env csv st :
  main env csv st
  = match analyse env (read_csv csv) with
    | inl e => (inl e, mkState (read_csv csv) (axes st) (files st) (stdout st))
    | inr a => export env (reported env csv a st)
    end.
Proof.
  unfold main. unfold bind at 1. rewrite report_run.
  by destruct (analyse env (read_csv csv)).
Qed.

(** When the converter succeeds, the run writes the PDF beside the image
    and the HTML, which both stay as they were, prints the one line "PDF
    report generated successfully!" and ends normally. *)
Theorem export_success_reported (env : Env) (csv : list (Row Pandas.cell))
    (st st1 : ProgState) (pdf : string) :
  report env csv st = (inr tt, st1) →
  from_file env (files st1) html_name = inr pdf →
  ∃ st2,
    main env csv st = (inr tt, st2)
    ∧ files st2 = <[pdf_name := pdf]> (files st1)
    ∧ files st2 !! html_name = files st1 !! html_name
    ∧ files st2 !! plot_filename = files st1 !! plot_filename
    ∧ is_Some (files st1 !! html_name) ∧ is_Some (files st1 !! plot_filename)
    ∧ stdout st2 = stdout st1 ++ ["PDF report generated successfully!"].
Proof.
  intros Hreport Hconv.
  assert (main env csv st = export env st1) as ->.
  { unfold main. unfold bind at 1. by rewrite Hreport. }
  rewrite export_run, Hconv. eexists. split; [done|]. cbn [files stdout].
  rewrite report_run in Hreport.
  destruct (analyse env (read_csv csv)) as [e|a]; [done|].
  injection Hreport as <-. unfold reported. cbn [files].
  split_and!; try done.
  - by rewrite lookup_insert_ne.
  - by rewrite lookup_insert_ne.
  - rewrite lookup_insert_eq. by eexists.
  - rewrite lookup_insert_ne by done. rewrite lookup_insert_eq. by eexists.
Qed.

Lemma export_success_reported_witness :
  ∃ st2,
    main working_env scenario_csv fresh = (inr tt, st2)
    ∧ files st2 = <[pdf_name := "PDF"]> (files (snd (report working_env scenario_csv fresh)))
    ∧ files st2 !! html_name
      = files (snd (report working_env scenario_csv fresh)) !! html_name
    ∧ files st2 !! plot_filename
      = files (snd (report working_env scenario_csv fresh)) !! plot_filename
    ∧ is_Some (files (snd (report working_env scenario_csv fresh)) !! html_name)
    ∧ is_Some (files (snd (report working_env scenario_csv fresh)) !! plot_filename)
    ∧ stdout st2
      = stdout (snd (report working_env scenario_csv fresh))
          ++ ["PDF report generated successfully!"].
Proof.
  apply (export_success_reported working_env scenario_csv fresh
           (snd (report working_env scenario_csv fresh)) "PDF").
  - rewrite report_run. reflexivity.
  - reflexivity.
Defined.

(** An exception of the converter that [except Exception] does not catch,
    such as a keyboard interrupt, ends the run as that exception: nothing
    is printed, and the image and the HTML written before are left on
    disk. *)
Theorem interrupt_leaves_script (env : Env) (csv : list (Row Pandas.cell))
    (st st1 : ProgState) (e : PyExc) :
  report env csv st = (inr tt, st1) →
  from_file env (files st1) html_name = inl e →
  derives_Exception e = false →
  main env csv st = (inl e, st1)
  ∧ stdout st1 = stdout st
  ∧ is_Some (files st1 !! html_name) ∧ is_Some (files st1 !! plot_filename).
Proof.
  intros Hreport Hconv Hexc.
  assert (main env csv st = export env st1) as ->.
  { unfold main. unfold bind at 1. by rewrite Hreport. }
  rewrite export_run, Hconv, Hexc. split; [done|].
  rewrite report_run in Hreport.
  destruct (analyse env (read_csv csv)) as [e'|a]; [done|].
  injection Hreport as <-. unfold reported. cbn [files stdout].
  split_and!; [done| |].
  - rewrite lookup_insert_eq. by eexists.
  - rewrite lookup_insert_ne by done. rewrite lookup_insert_eq. by eexists.
Qed.

Lemma interrupt_leaves_script_witness :
  main interrupted_env scenario_csv fresh
  = (inl keyboard_interrupt, snd (report interrupted_env scenario_csv fresh))
  ∧ stdout (snd (report interrupted_env scenario_csv fresh)) = stdout fresh
  ∧ is_Some (files (snd (report interrupted_env scenario_csv fresh)) !! html_name)
  ∧ is_Some (files (snd (report interrupted_env scenario_csv fresh)) !! plot_filename).
Proof.
  apply (interrupt_leaves_script interrupted_env scenario_csv fresh
           (snd (report interrupted_env scenario_csv fresh)) keyboard_interrupt).
  - rewrite report_run. reflexivity.
  - reflexivity.
  - reflexivity.
Defined.

(** Whatever the file holds and whatever the converter does, a run
    changes no file other than the image, the HTML and the PDF, and prints
    at most one line.  If the analysis raises, the run ends there: no file
    has been written and nothing has been printed. *)
Theorem run_touches_only_artifacts (env : Env) (csv : list (Row Pandas.cell))
    (st : ProgState) :
  (∀ name, name ∉ artifacts →
           files (snd (main env csv st)) !! name = files st !! name)
  ∧ (stdout (snd (main env csv st)) = stdout st
     ∨ ∃ line, stdout (snd (main env csv st)) = stdout st ++ [line])
  ∧ (∀ e, analyse env (read_csv csv) = inl e →
          fst (main env csv st) = inl e
          ∧ files (snd (main env csv st)) = files st
          ∧ stdout (snd (main env csv st)) = stdout st).
Proof.
  rewrite main_run.
  destruct (analyse env (read_csv csv)) as [e|a] eqn:Ea.
  { split_and!; [done|by left|]. by intros e' [= <-]. }
  split_and!; [| |done]; rewrite export_run;
    destruct (from_file env _ html_name) as [e|pdf];
    try destruct (derives_Exception e); cbn [snd files stdout reported];
    try (by left); try (right; by eexists).
  all: intros name Hname;
    apply not_elem_of_cons in Hname as [Hplot Hname];
    apply not_elem_of_cons in Hname as [Hhtml Hname];
    apply not_elem_of_cons in Hname as [Hpdf _];
    by rewrite ?lookup_insert_ne by done.
Qed.

(** Running the steps up to the HTML again on the state they left gives
    that state back: the image and the HTML are overwritten with the same
    content, nothing accumulates. *)
Theorem report_twice_same (env : Env) (csv : list (Row Pandas.cell))
    (st st1 : ProgState) :
  report env csv st = (inr tt, st1) →
  report env csv st1 = (inr tt, st1).
Proof.
  rewrite !report_run.
  destruct (analyse env (read_csv csv)) as [e|a]; [done|].
  intros [= <-]. f_equal. unfold reported. cbn [files stdout]. f_equal.
  apply map_eq. intros k. rewrite !lookup_insert. by repeat case_decide.
Qed.

Lemma report_twice_same_witness :
  report broken_env scenario_csv (snd (report broken_env scenario_csv fresh))
  = (inr tt, snd (report broken_env scenario_csv fresh)).
Proof.
  apply (report_twice_same broken_env scenario_csv fresh).
  rewrite report_run. reflexivity.
Defined.

